(** * Review classifier (src/app.py): a shallow embedding and its properties

    The Streamlit script [app.py] cleans a product review, loads up to six
    optional joblib artifacts, runs three independent classifiers on the
    cleaned text and derives two explanations (matched keywords, a topic
    number).  This file embeds the functions of that script and proves the
    properties stated about them.

    Conventions of the embedding.
    - A Python [str] is the list of its Unicode code points ([pystr]).
    - A call into third-party code (joblib, a model's [predict]) either
      returns a value or raises an instance of [Exception], the class every
      handler of the script names ([outcome]).  Interpreter-exit signals and
      calls that never return are outside the model, as they are outside the
      script's own handlers.
    - Statements of [main] run in a small state-and-exception monad [M] whose
      state is the log of observable events (warnings shown, artifacts read,
      [predict] calls made).
    - The module [Process] is the same script with the two things the first
      model leaves out: exceptions outside [Exception], which the handlers
      let through, and the cache of [load_models].  The first model is the
      process model on a fresh process and a disk without such exceptions
      ([main_is_first_exit_free_run]). *)

From stdpp Require Import gmap strings list.
From Stdlib Require Import NArith ZArith Ascii String DecimalString.

Open Scope N_scope.

(** ** Python strings *)

Abbreviation pystr := (list N).

(** An ASCII literal of the script as a Python string. *)
Definition py (s : string) : pystr := N_of_ascii <$> list_ascii_of_string s.

(** [c.isspace()], which is also what [\s] matches in a [str] pattern and what
    [str.strip()] removes: TAB..CR, FS..US, SPACE, NEL, NBSP and the Unicode
    space separators. *)
Definition is_space (c : N) : bool :=
  ((9 <=? c) && (c <=? 13)) || ((28 <=? c) && (c <=? 32))
  || (c =? 133) || (c =? 160) || (c =? 5760)
  || ((8192 <=? c) && (c <=? 8202))
  || (c =? 8232) || (c =? 8233) || (c =? 8239) || (c =? 8287) || (c =? 12288).

(** The range [a-z] of a character class. *)
Definition is_az (c : N) : bool := (97 <=? c) && (c <=? 122).

(** The range [A-Z]. *)
Definition is_AZ (c : N) : bool := (65 <=? c) && (c <=? 90).

(** A code point survives [re.sub(r'[^a-z\s]', '', _)] iff the negated class
    does not match it. *)
Definition in_class_az_space (c : N) : bool := is_az c || is_space c.

(** [re.sub(r'[^a-z\s]', '', text)]: the pattern matches one code point at a
    time, each match is replaced by the empty string. *)
Definition re_sub_not_az_space (text : pystr) : pystr :=
  List.filter in_class_az_space text.

Fixpoint lstrip (s : pystr) : pystr :=
  match s with
  | c :: s' => if is_space c then lstrip s' else s
  | [] => []
  end.

Definition rstrip (s : pystr) : pystr := rev (lstrip (rev s)).

(** [s.strip()] *)
Definition strip (s : pystr) : pystr := rstrip (lstrip s).

(** Truth value of a string: [not s] holds iff [s] is empty. *)
Definition str_is_falsy (s : pystr) : bool :=
  match s with [] => true | _ :: _ => false end.

Fixpoint startswith (s prefix : pystr) {struct prefix} : bool :=
  match prefix, s with
  | [], _ => true
  | p :: prefix', c :: s' => (p =? c) && startswith s' prefix'
  | _ :: _, [] => false
  end.

(** [kw in text] on strings: substring containment. *)
Fixpoint str_contains (text kw : pystr) : bool :=
  startswith text kw
  || match text with
     | [] => false
     | _ :: text' => str_contains text' kw
     end.

(** [str(n)] for an [int]. *)
Definition str_of_int (n : Z) : pystr := py (NilZero.string_of_int (Z.to_int n)).

(** The ASCII fragment of [str.lower]: on a string of code points below 128
    CPython lowers [A-Z] and leaves everything else. *)
Definition ascii_lower_cp (c : N) : N := if is_AZ c then c + 32 else c.
Definition ascii_lower (s : pystr) : pystr := ascii_lower_cp <$> s.

(** [c.isalpha()] on the ASCII fragment. *)
Definition ascii_isalpha (c : N) : bool := is_AZ c || is_az c.

(** ** Python values, exceptions, outcomes *)

(** The exceptions the script can meet; all are subclasses of [Exception]. *)
Inductive exn : Type :=
| IndexError
| TypeError
| AttributeError
| KeyError
| LibraryError (detail : string).

Inductive outcome (A : Type) : Type :=
| Returns (a : A)
| Raises (e : exn).
Arguments Returns {A} a.
Arguments Raises {A} e.

(** What [joblib.load] or a [predict] call can hand to the script. *)
#[local] Unset Elimination Schemes.
Inductive PyObj : Type :=
| PyNone
| PyStr (s : pystr)
| PyInt (n : Z)
| PyList (items : list PyObj)
| PyDict (items : list (PyObj * PyObj))
| PyEstimator (predict : list pystr -> outcome PyObj).
#[local] Set Elimination Schemes.

(** [o is not None] *)
Definition is_not_None (o : PyObj) : bool :=
  match o with PyNone => false | _ => true end.

(** [o[0]] *)
Definition getitem0 (o : PyObj) : outcome PyObj :=
  match o with
  | PyList (x :: _) => Returns x
  | PyList [] => Raises IndexError
  | PyStr (c :: _) => Returns (PyStr [c])
  | PyStr [] => Raises IndexError
  | PyDict items =>
      match List.find (fun kv => match kv.1 with PyInt 0%Z => true | _ => false end) items with
      | Some kv => Returns kv.2
      | None => Raises KeyError
      end
  | PyNone | PyInt _ | PyEstimator _ => Raises TypeError
  end.

(** ** Observable events and the monad of [main] *)

Inductive event : Type :=
| StWarning (msg : string)
| JoblibLoad (path : string)
| Predict (key : string) (batch : list pystr).

Definition M (A : Type) : Type := list event -> outcome A * list event.

Definition ret {A} (a : A) : M A := fun log => (Returns a, log).

Definition bind {A B} (m : M A) (k : A -> M B) : M B :=
  fun log =>
    match m log with
    | (Returns a, log') => k a log'
    | (Raises e, log') => (Raises e, log')
    end.

Definition raise {A} (e : exn) : M A := fun log => (Raises e, log).

Definition emit (ev : event) : M unit := fun log => (Returns tt, log ++ [ev]).

Definition lift {A} (r : outcome A) : M A := fun log => (r, log).

(** [try: body  except Exception: handler] *)
Definition try_except {A} (body handler : M A) : M A :=
  fun log =>
    match body log with
    | (Returns a, log') => (Returns a, log')
    | (Raises _, log') => handler log'
    end.

Declare Scope py_scope.
Delimit Scope py_scope with py.
Notation "x <- m ;; k" := (bind m (fun x => k))
  (at level 100, m at next level, right associativity) : py_scope.
Notation "m ;;; k" := (bind m (fun _ => k))
  (at level 100, right associativity) : py_scope.
Open Scope py_scope.

(** ** The environment of [load_models] *)

Record World : Type := {
  path_exists : string -> bool;            (* os.path.exists *)
  joblib_load : string -> outcome PyObj    (* joblib.load *)
}.

(** The snapshot [load_models] returns: a [dict] with string keys. *)
Abbreviation Models := (gmap string PyObj).

(** [models.get(key)] *)
Definition dict_get (models : Models) (key : string) : PyObj :=
  default PyNone (models !! key).

(** [models[key]] *)
Definition dict_getitem (models : Models) (key : string) : M PyObj :=
  match models !! key with
  | Some o => ret o
  | None => raise KeyError
  end.

(** [o.predict(batch)]: an attribute lookup, then the call. *)
Definition call_predict (key : string) (o : PyObj) (batch : list pystr) : M PyObj :=
  match o with
  | PyEstimator predict => emit (Predict key batch) ;;; lift (predict batch)
  | _ => raise AttributeError
  end.

(** What [main] holds when it renders. *)
Record Bundle : Type := {
  sentiment : PyObj;
  review_type : PyObj;
  category : PyObj;
  cleaned_text : pystr
}.

Inductive Analysis : Type :=
| EmptyInput
| Analyzed (b : Bundle).

(** An axis as displayed: [{x if x is not None else "Unavailable"}]. *)
Inductive AxisResult : Type :=
| Unavailable
| Label (l : PyObj).

Definition axis_result (x : PyObj) : AxisResult :=
  if is_not_None x then Label x else Unavailable.

(** The topic number [main] displays. *)
Inductive TopicNum : Type :=
| TopicId (k : Z)
| NotAvailable.   (* the string "N/A" *)

(** ** The functions of app.py *)

Section App.

(** [str.lower] of the running interpreter, with its Unicode tables. *)
Variable lower : pystr -> pystr.

(** [clean_text] (lines 51-54); [str(text)] is the identity on a [str]. *)
Definition clean_text (text : pystr) : pystr :=
  let text := lower text in
  let text := re_sub_not_az_space text in
  text.

(** [get_top_keywords] (lines 56-60). *)
Definition get_top_keywords (text : pystr)
    (keyword_dict : gmap pystr (list pystr)) (review_type : pystr) : list pystr :=
  let text_lower := lower text in
  let keywords := default [] (keyword_dict !! lower review_type) in
  List.filter (fun kw => str_contains text_lower kw) keywords.

(** [load_models.try_load] (lines 31-37). *)
Definition try_load (w : World) (path : string) : M PyObj :=
  try_except
    (if path_exists w path
     then emit (JoblibLoad path) ;;; lift (joblib_load w path)
     else ret PyNone)
    (ret PyNone).

(** [load_models] (lines 28-49); the dict display evaluates its values in
    order.  [st.cache_resource] keeps the returned dict for later runs; this is
    the call that reads the files. *)
Definition load_models (w : World) : M Models :=
  m_sentiment <- try_load w "models/sentiment_model.pkl" ;;
  m_review_type <- try_load w "models/reviewtype_model.pkl" ;;
  m_product_category <- try_load w "models/department_model.pkl" ;;
  m_topic_mapping <- try_load w "models/topic_category_mapping.pkl" ;;
  m_review_keywords <- try_load w "models/reviewtype_keywords.pkl" ;;
  m_vectorizer <- try_load w "models/vectorizer.pkl" ;;
  ret ({[ "sentiment"%string := m_sentiment;
          "review_type"%string := m_review_type;
          "product_category"%string := m_product_category;
          "topic_mapping"%string := m_topic_mapping;
          "review_keywords"%string := m_review_keywords;
          "vectorizer"%string := m_vectorizer ]} : Models).

(** [main] after a click on Analyze (lines 108-135): the guard on the raw
    review, the snapshot, the cleaning, the three prediction blocks.  The
    result is what the rendering code below line 137 then reads. *)
Definition main (w : World) (review : pystr) : M Analysis :=
  if str_is_falsy (strip review)
  then emit (StWarning "Please enter a review") ;;; ret EmptyInput
  else
    models <- load_models w ;;
    let cleaned_text := clean_text review in
    sentiment <-
      (if is_not_None (dict_get models "sentiment")
       then try_except
              (o <- dict_getitem models "sentiment" ;;
               r <- call_predict "sentiment" o [cleaned_text] ;;
               lift (getitem0 r))
              (ret PyNone)
       else ret PyNone) ;;
    review_type <-
      (if is_not_None (dict_get models "review_type")
       then try_except
              (o <- dict_getitem models "review_type" ;;
               r <- call_predict "review_type" o [cleaned_text] ;;
               lift (getitem0 r))
              (ret PyNone)
       else ret PyNone) ;;
    category <-
      (if is_not_None (dict_get models "product_category")
       then try_except
              (o <- dict_getitem models "product_category" ;;
               r <- call_predict "product_category" o [cleaned_text] ;;
               lift (getitem0 r))
              (ret PyNone)
       else ret PyNone) ;;
    ret (Analyzed {| sentiment := sentiment; review_type := review_type;
                     category := category; cleaned_text := cleaned_text |}).

End App.

(** [get_category_keywords] (lines 62-66): [[...][0]] on the list of matching
    keys, then the f-string. *)
Definition get_category_keywords (topic_mapping : list (Z * pystr))
    (category : pystr) : outcome pystr :=
  let candidates :=
    (fun kv => kv.1) <$> List.filter (fun kv => bool_decide (kv.2 = category)) topic_mapping in
  match candidates with
  | topic_num :: _ => Returns (py "Topic " ++ str_of_int topic_num ++ py " keywords")
  | [] => Raises IndexError
  end.

(** Lines 214-215 of [main]: the same comprehension, guarded.  On a mapping
    from [int] to [str] neither [.items()] nor [==] raises, so the handler of
    line 216 is not reached. *)
Definition main_topic_num (topic_mapping : list (Z * pystr))
    (category : pystr) : TopicNum :=
  let topic_candidates :=
    (fun kv => kv.1) <$> List.filter (fun kv => bool_decide (kv.2 = category)) topic_mapping in
  match topic_candidates with
  | k :: _ => TopicId k
  | [] => NotAvailable
  end.

(** ** What each piece of [main] computes, in closed form *)

(** The artifact paths of [load_models], by snapshot key. *)
Definition artifact_paths : list (string * string) :=
  [ ("sentiment", "models/sentiment_model.pkl");
    ("review_type", "models/reviewtype_model.pkl");
    ("product_category", "models/department_model.pkl");
    ("topic_mapping", "models/topic_category_mapping.pkl");
    ("review_keywords", "models/reviewtype_keywords.pkl");
    ("vectorizer", "models/vectorizer.pkl") ]%string.

(** The three primary axes, by snapshot key. *)
Definition primary_axes : list string :=
  [ "sentiment"; "review_type"; "product_category" ]%string.

(** The object [try_load] yields for a path. *)
Definition loaded (w : World) (path : string) : PyObj :=
  if path_exists w path
  then match joblib_load w path with Returns o => o | Raises _ => PyNone end
  else PyNone.

Definition load_events (w : World) (path : string) : list event :=
  if path_exists w path then [JoblibLoad path] else [].

(** The snapshot of a world. *)
Definition snapshot (w : World) : Models :=
  {[ "sentiment"%string := loaded w "models/sentiment_model.pkl";
     "review_type"%string := loaded w "models/reviewtype_model.pkl";
     "product_category"%string := loaded w "models/department_model.pkl";
     "topic_mapping"%string := loaded w "models/topic_category_mapping.pkl";
     "review_keywords"%string := loaded w "models/reviewtype_keywords.pkl";
     "vectorizer"%string := loaded w "models/vectorizer.pkl" ]}.

(** What one model, taken alone, produces on a cleaned text: the first
    element of its prediction, [None] when there is no model or the call
    fails. *)
Definition model_output (o : PyObj) (cleaned : pystr) : PyObj :=
  match o with
  | PyEstimator predict =>
      match predict [cleaned] with
      | Returns r => match getitem0 r with Returns v => v | Raises _ => PyNone end
      | Raises _ => PyNone
      end
  | _ => PyNone
  end.

(** The [predict] calls one axis makes. *)
Definition predict_events (key : string) (o : PyObj) (cleaned : pystr) : list event :=
  match o with
  | PyEstimator _ => [Predict key [cleaned]]
  | _ => []
  end.

(** The field of a bundle that belongs to a snapshot key. *)
Definition axis (key : string) (b : Bundle) : PyObj :=
  if String.eqb key "sentiment" then sentiment b
  else if String.eqb key "review_type" then review_type b
  else if String.eqb key "product_category" then category b
  else PyNone.

(** A present model fails on a text: it has no [predict], [predict] raises,
    or its result has no first element. *)
Definition prediction_fails (o : PyObj) (cleaned : pystr) : Prop :=
  match o with
  | PyEstimator predict =>
      (exists e, predict [cleaned] = Raises e)
      \/ (exists r e, predict [cleaned] = Returns r /\ getitem0 r = Raises e)
  | _ => True
  end.

(** [kw] occurs in [text] as a contiguous substring. *)
Definition substring (kw text : pystr) : Prop :=
  exists pre post, text = pre ++ kw ++ post.

(** A world given by the files on disk: a path exists iff it is listed, and
    loading it gives the listed outcome. *)
Fixpoint file_lookup (files : list (string * outcome PyObj)) (path : string)
    : option (outcome PyObj) :=
  match files with
  | [] => None
  | (p, r) :: files' => if String.eqb p path then Some r else file_lookup files' path
  end.

Definition disk (files : list (string * outcome PyObj)) : World :=
  {| path_exists := fun path => bool_decide (is_Some (file_lookup files path));
     joblib_load := fun path =>
       default (Raises (LibraryError "FileNotFoundError")) (file_lookup files path) |}.

(** A classifier that answers the same label on every batch. *)
Definition constant_model (label : string) : PyObj :=
  PyEstimator (fun _ => Returns (PyList [PyStr (py label)])).

(** A classifier whose [predict] always raises. *)
Definition broken_model : PyObj :=
  PyEstimator (fun _ => Raises (LibraryError "NotFittedError")).

(** Code points below 128. *)
Definition is_ascii (c : N) : bool := c <? 128.

(** A deployment with a sentiment and a category classifier and a review-type
    classifier that fails on every call; the optional tables are not shipped. *)
Definition shop_world : World :=
  disk [ ("models/sentiment_model.pkl", Returns (constant_model "Positive"));
         ("models/reviewtype_model.pkl", Returns broken_model);
         ("models/department_model.pkl", Returns (constant_model "Dresses")) ]%string.




(** ** The process model: exception classes and the resource cache

    The definitions above take every raise to be an instance of [Exception]
    and every run to start with nothing cached.  The module below drops both
    restrictions.  A raise is either an instance of [Exception] or one of the
    exceptions outside it, [SystemExit], [KeyboardInterrupt] and
    [GeneratorExit], which [except Exception] (lines 35, 124, 129, 134) does
    not catch; and the state carries, next to the log, what
    [@st.cache_resource()] (line 27) holds for [load_models]. *)

Module Process.

Inductive raised : Type :=
| Error (e : exn)           (* an instance of Exception *)
| Exit (signal : string).   (* SystemExit, KeyboardInterrupt, GeneratorExit *)

Inductive outcome (A : Type) : Type :=
| Returns (a : A)
| Raises (r : raised).
Arguments Returns {A} a.
Arguments Raises {A} r.

#[local] Unset Elimination Schemes.
Inductive PyObj : Type :=
| PyNone
| PyStr (s : pystr)
| PyInt (n : Z)
| PyList (items : list PyObj)
| PyDict (items : list (PyObj * PyObj))
| PyEstimator (predict : list pystr -> outcome PyObj).
#[local] Set Elimination Schemes.

(** [o is not None] *)
Definition is_not_None (o : PyObj) : bool :=
  match o with PyNone => false | _ => true end.

(** [o[0]] *)
Definition getitem0 (o : PyObj) : outcome PyObj :=
  match o with
  | PyList (x :: _) => Returns x
  | PyList [] => Raises (Error IndexError)
  | PyStr (c :: _) => Returns (PyStr [c])
  | PyStr [] => Raises (Error IndexError)
  | PyDict items =>
      match List.find (fun kv => match kv.1 with PyInt 0%Z => true | _ => false end) items with
      | Some kv => Returns kv.2
      | None => Raises (Error KeyError)
      end
  | PyNone | PyInt _ | PyEstimator _ => Raises (Error TypeError)
  end.

(** The state of the process between and during runs of the script. *)
Record State : Type := {
  st_log : list event;                    (* the events so far *)
  st_cache : option (gmap string PyObj)   (* what cache_resource holds for load_models *)
}.

Definition add_log (st : State) (events : list event) : State :=
  {| st_log := st_log st ++ events; st_cache := st_cache st |}.

Definition M (A : Type) : Type := State -> outcome A * State.

Definition ret {A} (a : A) : M A := fun st => (Returns a, st).

Definition bind {A B} (m : M A) (k : A -> M B) : M B :=
  fun st =>
    match m st with
    | (Returns a, st') => k a st'
    | (Raises r, st') => (Raises r, st')
    end.

Definition raise {A} (e : exn) : M A := fun st => (Raises (Error e), st).

Definition emit (ev : event) : M unit := fun st => (Returns tt, add_log st [ev]).

Definition lift {A} (r : outcome A) : M A := fun st => (r, st).

(** [try: body  except Exception: handler]: an instance of [Exception] runs
    the handler, anything else raised goes on to the caller. *)
Definition try_except {A} (body handler : M A) : M A :=
  fun st =>
    match body st with
    | (Returns a, st') => (Returns a, st')
    | (Raises (Error _), st') => handler st'
    | (Raises (Exit signal), st') => (Raises (Exit signal), st')
    end.

Declare Scope process_scope.
Delimit Scope process_scope with process.
Notation "x <- m ;; k" := (bind m (fun x => k))
  (at level 100, m at next level, right associativity) : process_scope.
Notation "m ;;; k" := (bind m (fun _ => k))
  (at level 100, right associativity) : process_scope.
#[local] Open Scope process_scope.

Record World : Type := {
  path_exists : string -> bool;            (* os.path.exists *)
  joblib_load : string -> outcome PyObj    (* joblib.load *)
}.

Abbreviation Models := (gmap string PyObj).

(** [models.get(key)] *)
Definition dict_get (models : Models) (key : string) : PyObj :=
  default PyNone (models !! key).

(** [models[key]] *)
Definition dict_getitem (models : Models) (key : string) : M PyObj :=
  match models !! key with
  | Some o => ret o
  | None => raise KeyError
  end.

(** [o.predict(batch)] *)
Definition call_predict (key : string) (o : PyObj) (batch : list pystr) : M PyObj :=
  match o with
  | PyEstimator predict => emit (Predict key batch) ;;; lift (predict batch)
  | _ => raise AttributeError
  end.

Record Bundle : Type := {
  sentiment : PyObj;
  review_type : PyObj;
  category : PyObj;
  cleaned_text : pystr
}.

Inductive Analysis : Type :=
| EmptyInput
| Analyzed (b : Bundle).

Inductive AxisResult : Type :=
| Unavailable
| Label (l : PyObj).

Definition axis_result (x : PyObj) : AxisResult :=
  if is_not_None x then Label x else Unavailable.

(** [@st.cache_resource()] on a function without arguments: a call runs the
    body only while nothing is stored; the first call that returns stores its
    result, and every later call returns the stored object.  A call that
    raises stores nothing. *)
Definition cache_resource (body : M Models) : M Models :=
  fun st =>
    match st_cache st with
    | Some models => (Returns models, st)
    | None =>
        match body st with
        | (Returns models, st') =>
            (Returns models, {| st_log := st_log st'; st_cache := Some models |})
        | (Raises r, st') => (Raises r, st')
        end
    end.

(** [load_models.try_load] (lines 31-37). *)
Definition try_load (w : World) (path : string) : M PyObj :=
  try_except
    (if path_exists w path
     then emit (JoblibLoad path) ;;; lift (joblib_load w path)
     else ret PyNone)
    (ret PyNone).

(** The body of [load_models] (lines 28-49). *)
Definition load_models_body (w : World) : M Models :=
  m_sentiment <- try_load w "models/sentiment_model.pkl" ;;
  m_review_type <- try_load w "models/reviewtype_model.pkl" ;;
  m_product_category <- try_load w "models/department_model.pkl" ;;
  m_topic_mapping <- try_load w "models/topic_category_mapping.pkl" ;;
  m_review_keywords <- try_load w "models/reviewtype_keywords.pkl" ;;
  m_vectorizer <- try_load w "models/vectorizer.pkl" ;;
  ret ({[ "sentiment"%string := m_sentiment;
          "review_type"%string := m_review_type;
          "product_category"%string := m_product_category;
          "topic_mapping"%string := m_topic_mapping;
          "review_keywords"%string := m_review_keywords;
          "vectorizer"%string := m_vectorizer ]} : Models).

(** [load_models] as the script calls it: the decorated function
    (lines 27-49). *)
Definition load_models (w : World) : M Models :=
  cache_resource (load_models_body w).

Section Classification.

Variable lower : pystr -> pystr.

(** [main] from the click on Analyze to the end of the prediction blocks
    (lines 108-135).  The rendering and the two expanders that follow
    (lines 137-228) are not part of it. *)
Definition main_classification (w : World) (review : pystr) : M Analysis :=
  if str_is_falsy (strip review)
  then emit (StWarning "Please enter a review") ;;; ret EmptyInput
  else
    models <- load_models w ;;
    let cleaned_text := clean_text lower review in
    sentiment <-
      (if is_not_None (dict_get models "sentiment")
       then try_except
              (o <- dict_getitem models "sentiment" ;;
               r <- call_predict "sentiment" o [cleaned_text] ;;
               lift (getitem0 r))
              (ret PyNone)
       else ret PyNone) ;;
    review_type <-
      (if is_not_None (dict_get models "review_type")
       then try_except
              (o <- dict_getitem models "review_type" ;;
               r <- call_predict "review_type" o [cleaned_text] ;;
               lift (getitem0 r))
              (ret PyNone)
       else ret PyNone) ;;
    category <-
      (if is_not_None (dict_get models "product_category")
       then try_except
              (o <- dict_getitem models "product_category" ;;
               r <- call_predict "product_category" o [cleaned_text] ;;
               lift (getitem0 r))
              (ret PyNone)
       else ret PyNone) ;;
    ret (Analyzed {| sentiment := sentiment; review_type := review_type;
                     category := category; cleaned_text := cleaned_text |}).

End Classification.

(** *** Closed forms and conditions used in the statements *)

(** The object [try_load] yields for a path when the load does not exit. *)
Definition loaded (w : World) (path : string) : PyObj :=
  if path_exists w path
  then match joblib_load w path with Returns o => o | Raises _ => PyNone end
  else PyNone.

Definition load_events (w : World) (path : string) : list event :=
  if path_exists w path then [JoblibLoad path] else [].

(** The snapshot of a disk. *)
Definition snapshot (w : World) : Models :=
  {[ "sentiment"%string := loaded w "models/sentiment_model.pkl";
     "review_type"%string := loaded w "models/reviewtype_model.pkl";
     "product_category"%string := loaded w "models/department_model.pkl";
     "topic_mapping"%string := loaded w "models/topic_category_mapping.pkl";
     "review_keywords"%string := loaded w "models/reviewtype_keywords.pkl";
     "vectorizer"%string := loaded w "models/vectorizer.pkl" ]}.

(** The snapshot a run works with: the cached one if there is one, else the
    one it loads from the disk. *)
Definition models_in_use (w : World) (st : State) : Models :=
  default (snapshot w) (st_cache st).

(** The paths a run reads: none once a snapshot is cached. *)
Definition paths_read (w : World) (st : State) : list string :=
  match st_cache st with
  | Some _ => []
  | None => List.filter (path_exists w) (artifact_paths.*2)
  end.

(** No artifact that exists raises an exception outside [Exception] when it
    is loaded. *)
Definition no_exit_on_load (w : World) : Prop :=
  forall key path signal,
    (key, path) ∈ artifact_paths -> path_exists w path = true ->
    joblib_load w path <> Raises (Exit signal).

(** No primary model of the snapshot raises an exception outside
    [Exception] on the batch of the text. *)
Definition no_exit_on_predict (models : Models) (cleaned : pystr) : Prop :=
  forall key predict signal,
    key ∈ primary_axes -> models !! key = Some (PyEstimator predict) ->
    predict [cleaned] <> Raises (Exit signal).

Definition model_output (o : PyObj) (cleaned : pystr) : PyObj :=
  match o with
  | PyEstimator predict =>
      match predict [cleaned] with
      | Returns r => match getitem0 r with Returns v => v | Raises _ => PyNone end
      | Raises _ => PyNone
      end
  | _ => PyNone
  end.

Definition is_estimator (o : PyObj) : bool :=
  match o with PyEstimator _ => true | _ => false end.

Definition predict_events (key : string) (o : PyObj) (cleaned : pystr) : list event :=
  if is_estimator o then [Predict key [cleaned]] else [].

Definition axis (key : string) (b : Bundle) : PyObj :=
  if String.eqb key "sentiment" then sentiment b
  else if String.eqb key "review_type" then review_type b
  else if String.eqb key "product_category" then category b
  else PyNone.

(** A present object fails on a text with an instance of [Exception]: it
    has no [predict], [predict] raises one, or taking [[0]] of its result
    raises one. *)
Definition prediction_fails (o : PyObj) (cleaned : pystr) : Prop :=
  match o with
  | PyEstimator predict =>
      (exists e, predict [cleaned] = Raises (Error e))
      \/ (exists r e, predict [cleaned] = Returns r /\ getitem0 r = Raises (Error e))
  | _ => True
  end.

(** *** Disks for the examples *)

Fixpoint file_lookup (files : list (string * outcome PyObj)) (path : string)
    : option (outcome PyObj) :=
  match files with
  | [] => None
  | (p, r) :: files' => if String.eqb p path then Some r else file_lookup files' path
  end.

Definition disk (files : list (string * outcome PyObj)) : World :=
  {| path_exists := fun path => bool_decide (is_Some (file_lookup files path));
     joblib_load := fun path =>
       default (Raises (Error (LibraryError "FileNotFoundError"))) (file_lookup files path) |}.

Definition constant_model (label : string) : PyObj :=
  PyEstimator (fun _ => Returns (PyList [PyStr (py label)])).

Definition broken_model : PyObj :=
  PyEstimator (fun _ => Raises (Error (LibraryError "NotFittedError"))).


(** A process that has not loaded anything yet. *)
Definition fresh : State := {| st_log := []; st_cache := None |}.

(** A sentiment classifier, a review-type classifier that fails on every
    call, a category classifier; the sentiment artifact of [corrupt_shop] is
    corrupt. *)
Definition shop : World :=
  disk [ ("models/sentiment_model.pkl", Returns (constant_model "Positive"));
         ("models/reviewtype_model.pkl", Returns broken_model);
         ("models/department_model.pkl", Returns (constant_model "Dresses")) ]%string.

Definition corrupt_shop : World :=
  disk [ ("models/sentiment_model.pkl", Raises (Error (LibraryError "UnpicklingError")));
         ("models/department_model.pkl", Returns (constant_model "Dresses")) ]%string.

(** The sentiment artifact is a pickle whose loading calls [sys.exit]. *)
Definition exiting_pickle_shop : World :=
  disk [ ("models/sentiment_model.pkl", Raises (Exit "SystemExit"));
         ("models/department_model.pkl", Returns (constant_model "Dresses")) ]%string.


End Process.

(** *** The first model inside the process model

    An object, a disk or a result of the first part of this file, read as one
    of the process model: every raise becomes an instance of [Exception]. *)

Fixpoint embed (o : PyObj) : Process.PyObj :=
  match o with
  | PyNone => Process.PyNone
  | PyStr s => Process.PyStr s
  | PyInt n => Process.PyInt n
  | PyList items => Process.PyList (List.map embed items)
  | PyDict items =>
      Process.PyDict (List.map (fun kv => match kv with (k, v) => (embed k, embed v) end) items)
  | PyEstimator predict =>
      Process.PyEstimator (fun batch =>
        match predict batch with
        | Returns r => Process.Returns (embed r)
        | Raises e => Process.Raises (Process.Error e)
        end)
  end.

Definition embed_outcome (r : outcome PyObj) : Process.outcome Process.PyObj :=
  match r with
  | Returns o => Process.Returns (embed o)
  | Raises e => Process.Raises (Process.Error e)
  end.

Definition embed_world (w : World) : Process.World :=
  {| Process.path_exists := path_exists w;
     Process.joblib_load := fun path => embed_outcome (joblib_load w path) |}.

Definition embed_analysis (a : Analysis) : Process.Analysis :=
  match a with
  | EmptyInput => Process.EmptyInput
  | Analyzed b =>
      Process.Analyzed
        {| Process.sentiment := embed (sentiment b);
           Process.review_type := embed (review_type b);
           Process.category := embed (category b);
           Process.cleaned_text := cleaned_text b |}
  end.

(** ** Strings *)

Lemma startswith_spec (s prefix : pystr) :
  startswith s prefix = true <-> exists post, s = prefix ++ post.
Proof.
  revert s; induction prefix as [|p prefix IH]; intros s; simpl.
  - split; [intros _; by exists s | done].
  - destruct s as [|c s].
    + split; [done | intros [post H]; discriminate].
    + rewrite andb_true_iff, IH, N.eqb_eq. split.
      * intros [-> [post ->]]. by exists post.
      * intros [post [= -> ->]]. split; [done | by exists post].
Qed.

Lemma str_contains_spec (text kw : pystr) :
  str_contains text kw = true <-> substring kw text.
Proof.
  unfold substring. induction text as [|c text IH].
  - simpl. rewrite orb_false_r, startswith_spec. split.
    + intros [post H]. exists [], post. done.
    + intros [pre [post H]]. destruct pre; [by exists post | discriminate].
  - cbn [str_contains]. rewrite orb_true_iff, startswith_spec, IH. split.
    + intros [[post H] | [pre [post H]]].
      * by exists [], post.
      * exists (c :: pre), post. by rewrite H.
    + intros [[|c' pre] [post H]].
      * left. by exists post.
      * right. injection H as -> H. by exists pre, post.
Qed.

Lemma lstrip_nil_iff (s : pystr) :
  lstrip s = [] <-> Forall (fun c => is_space c = true) s.
Proof.
  induction s as [|c s IH]; simpl.
  - split; [constructor | done].
  - destruct (is_space c) eqn:Hc.
    + rewrite IH. split; [by constructor | by inversion 1].
    + split; [done | inversion 1; congruence].
Qed.

Lemma lstrip_head (s : pystr) :
  match lstrip s with [] => True | c :: _ => is_space c = false end.
Proof.
  induction s as [|c s IH]; simpl; [done|].
  destruct (is_space c) eqn:Hc; [done | by rewrite Hc].
Qed.

(** The guard of [main] fires exactly on the strings made of whitespace. *)
Lemma strip_falsy_iff (s : pystr) :
  str_is_falsy (strip s) = true <-> Forall (fun c => is_space c = true) s.
Proof.
  unfold strip, rstrip. rewrite <- lstrip_nil_iff. split.
  - intros H. destruct (rev (lstrip (rev (lstrip s)))) as [|x l] eqn:E; [|done].
    apply (f_equal (@rev N)) in E. rewrite rev_involutive in E. simpl in E.
    apply lstrip_nil_iff in E.
    pose proof (lstrip_head s) as Hh.
    destruct (lstrip s) as [|c t]; [done|].
    apply Forall_rev in E. rewrite rev_involutive in E.
    inversion E; congruence.
  - intros ->. done.
Qed.

Lemma strip_truthy_iff (s : pystr) :
  str_is_falsy (strip s) = false <-> exists c, c ∈ s /\ is_space c = false.
Proof.
  rewrite <- not_true_iff_false, strip_falsy_iff, <- Exists_Forall_neg, Exists_exists.
  - split; intros [c [? Hc]]; exists c; (split; [done|]).
    + by apply not_true_is_false.
    + by rewrite Hc.
  - intros c. destruct (is_space c); [by left | by right].
Qed.

(** ** Running the monad *)

Lemma bind_returns {A B} (m : M A) (k : A -> M B) log a log' :
  m log = (Returns a, log') -> bind m k log = k a log'.
Proof. unfold bind. by intros ->. Qed.

Lemma try_load_run (w : World) (path : string) (log : list event) :
  try_load w path log = (Returns (loaded w path), log ++ load_events w path).
Proof.
  unfold try_load, try_except, loaded, load_events, bind, emit, lift, ret.
  destruct (path_exists w path).
  - by destruct (joblib_load w path).
  - by rewrite app_nil_r.
Qed.

Lemma load_models_run (w : World) (log : list event) :
  load_models w log =
    (Returns (snapshot w),
     log ++ flat_map (fun kp => load_events w kp.2) artifact_paths).
Proof.
  unfold load_models.
  repeat (erewrite bind_returns by apply try_load_run).
  unfold ret, snapshot. f_equal. simpl.
  by rewrite app_nil_r, <- !(assoc_L (++)).
Qed.

(** One prediction block of [main], for any key. *)
Lemma axis_block_run (models : Models) (key : string) (cleaned : pystr) log :
  (if is_not_None (dict_get models key)
   then try_except
          (o <- dict_getitem models key ;;
           r <- call_predict key o [cleaned] ;;
           lift (getitem0 r))
          (ret PyNone)
   else ret PyNone) log
  = (Returns (model_output (dict_get models key) cleaned),
     log ++ predict_events key (dict_get models key) cleaned).
Proof.
  unfold dict_get, dict_getitem.
  destruct (models !! key) as [o|]; simpl; [|by rewrite app_nil_r].
  destruct o as [| | | | |predict]; simpl;
    try (unfold try_except, bind, ret, raise; simpl; by rewrite app_nil_r).
  unfold try_except, bind, emit, lift, ret. simpl.
  destruct (predict [cleaned]) as [r|e]; [|done].
  by destruct (getitem0 r).
Qed.

Section Runs.

Variable lower : pystr -> pystr.

Lemma main_blank_run (w : World) (review : pystr) log :
  str_is_falsy (strip review) = true ->
  main lower w review log
  = (Returns EmptyInput, log ++ [StWarning "Please enter a review"]).
Proof. unfold main. by intros ->. Qed.

Lemma main_run (w : World) (review : pystr) log :
  str_is_falsy (strip review) = false ->
  main lower w review log =
    (Returns (Analyzed
       {| sentiment := model_output (dict_get (snapshot w) "sentiment") (clean_text lower review);
          review_type := model_output (dict_get (snapshot w) "review_type") (clean_text lower review);
          category := model_output (dict_get (snapshot w) "product_category") (clean_text lower review);
          cleaned_text := clean_text lower review |}),
     (log ++ flat_map (fun kp => load_events w kp.2) artifact_paths)
     ++ flat_map (fun key => predict_events key (dict_get (snapshot w) key)
                               (clean_text lower review)) primary_axes).
Proof.
  intros Hg. unfold main. rewrite Hg.
  erewrite bind_returns by apply load_models_run. cbv zeta.
  repeat (erewrite bind_returns by apply axis_block_run).
  unfold ret. f_equal. simpl.
  by rewrite !app_nil_r, <- !(assoc_L (++)).
Qed.

End Runs.

Lemma snapshot_lookup (w : World) (key path : string) :
  (key, path) ∈ artifact_paths -> snapshot w !! key = Some (loaded w path).
Proof.
  unfold artifact_paths. rewrite !elem_of_cons, elem_of_nil.
  intros H. unfold snapshot.
  repeat (destruct H as [[= -> ->] | H]; [by simplify_map_eq|]).
  done.
Qed.

(** ** Facts about the character classes *)

Lemma in_class_iff (c : N) :
  in_class_az_space c = true <-> is_az c = true \/ is_space c = true.
Proof. unfold in_class_az_space. apply orb_true_iff. Qed.

Lemma in_class_not_AZ (c : N) : in_class_az_space c = true -> is_AZ c = false.
Proof.
  intros H. apply not_true_is_false. revert H.
  unfold in_class_az_space, is_az, is_space, is_AZ.
  rewrite !orb_true_iff, !andb_true_iff, !N.leb_le, !N.eqb_eq. lia.
Qed.

Lemma forallb_Forall {A} (f : A -> bool) (l : list A) :
  forallb f l = true <-> Forall (fun x => f x = true) l.
Proof.
  induction l as [|x l IH]; simpl.
  - split; [constructor | done].
  - rewrite andb_true_iff, IH. split; [intros []; by constructor | by inversion 1].
Qed.

Lemma filter_fixed {A} (f : A -> bool) (l : list A) :
  Forall (fun x => f x = true) l -> List.filter f l = l.
Proof. intros H. by apply forallb_filter_id, forallb_Forall. Qed.

Lemma filter_all {A} (f : A -> bool) (l : list A) :
  Forall (fun x => f x = true) (List.filter f l).
Proof. apply forallb_Forall, forallb_filter. Qed.

Lemma filter_filter_weaker {A} (f g : A -> bool) (l : list A) :
  (forall x, f x = true -> g x = true) ->
  List.filter f (List.filter g l) = List.filter f l.
Proof.
  intros Hfg. induction l as [|x l IH]; simpl; [done|].
  destruct (g x) eqn:Hg; simpl.
  - by rewrite IH.
  - destruct (f x) eqn:Hf; [|done]. apply Hfg in Hf. congruence.
Qed.

Lemma filter_sublist {A} (f : A -> bool) (l : list A) : List.filter f l `sublist_of` l.
Proof.
  induction l as [|x l IH]; simpl; [done|].
  destruct (f x); by constructor.
Qed.

(** The ASCII instance of [str.lower] leaves a cleaned string alone. *)
Lemma ascii_lower_fixes_clean (s : pystr) :
  Forall (fun c => in_class_az_space c = true) s -> ascii_lower s = s.
Proof.
  unfold ascii_lower. induction 1 as [|c s Hc _ IH]; [done|].
  rewrite fmap_cons, IH. unfold ascii_lower_cp. by rewrite (in_class_not_AZ c Hc).
Qed.

(** ** The normalizer, [clean_text] *)

Section Normalizer.

(** [str.lower] of the interpreter.  It leaves alone a string made of [a-z]
    and whitespace only: none of those code points has a lowercase mapping. *)
Variable lower : pystr -> pystr.
Hypothesis lower_fixes_clean :
  forall s, Forall (fun c => in_class_az_space c = true) s -> lower s = s.

Lemma clean_text_in_class (x : pystr) :
  Forall (fun c => in_class_az_space c = true) (clean_text lower x).
Proof. apply filter_all. Qed.

(** C7. Total character filtering: [clean_text] is a function on all strings;
    every code point of its result is in [a-z] or is whitespace; the result
    is lowercased (lowering it again changes nothing); and the cleaning drops
    code points without collapsing or reordering: the result is a subsequence
    of the lowered text that keeps every whitespace code point and every
    [a-z] code point of it. *)
Theorem clean_text_filtering (x : pystr) :
  Forall (fun c => is_az c = true \/ is_space c = true) (clean_text lower x)
  /\ lower (clean_text lower x) = clean_text lower x
  /\ clean_text lower x `sublist_of` lower x
  /\ List.filter is_space (clean_text lower x) = List.filter is_space (lower x)
  /\ List.filter is_az (clean_text lower x) = List.filter is_az (lower x).
Proof.
  split; [|split; [|split; [|split]]].
  - eapply Forall_impl; [apply clean_text_in_class|].
    intros c. apply in_class_iff.
  - apply lower_fixes_clean, clean_text_in_class.
  - apply filter_sublist.
  - apply filter_filter_weaker. intros c Hc. apply in_class_iff. by right.
  - apply filter_filter_weaker. intros c Hc. apply in_class_iff. by left.
Qed.

(** C8. Idempotence: cleaning a cleaned text changes nothing. *)
Theorem clean_text_idempotent (x : pystr) :
  clean_text lower (clean_text lower x) = clean_text lower x.
Proof.
  unfold clean_text at 1. cbv zeta.
  rewrite (lower_fixes_clean _ (clean_text_in_class x)).
  apply filter_fixed, clean_text_in_class.
Qed.

End Normalizer.

Lemma clean_text_filtering_witness :
  let x := py "Size 10 runs small!!  Love it." in
  Forall (fun c => is_az c = true \/ is_space c = true) (clean_text ascii_lower x)
  /\ ascii_lower (clean_text ascii_lower x) = clean_text ascii_lower x
  /\ clean_text ascii_lower x `sublist_of` ascii_lower x
  /\ List.filter is_space (clean_text ascii_lower x) = List.filter is_space (ascii_lower x)
  /\ List.filter is_az (clean_text ascii_lower x) = List.filter is_az (ascii_lower x).
Proof.
  exact (clean_text_filtering ascii_lower ascii_lower_fixes_clean
           (py "Size 10 runs small!!  Love it.")).
Defined.

Lemma clean_text_idempotent_witness :
  clean_text ascii_lower (clean_text ascii_lower (py "Great FIT, 5 stars!"))
  = clean_text ascii_lower (py "Great FIT, 5 stars!").
Proof.
  exact (clean_text_idempotent ascii_lower ascii_lower_fixes_clean
           (py "Great FIT, 5 stars!")).
Defined.

(** ** The keyword explainer, [get_top_keywords] *)

Section KeywordExplainer.

Variable lower : pystr -> pystr.

(** C6. Keyword explanation: every keyword returned occurs in the lowercased
    original text and belongs to the table's list for the lowercased label;
    every keyword of that list that occurs in the lowercased text is
    returned; the result keeps the order of the list; and a label missing
    from the table gives the empty list. *)
Theorem keyword_explanation (text : pystr)
    (keyword_dict : gmap pystr (list pystr)) (review_type : pystr) :
  let keywords := default [] (keyword_dict !! lower review_type) in
  let found := get_top_keywords lower text keyword_dict review_type in
  (forall kw, kw ∈ found -> substring kw (lower text) /\ kw ∈ keywords)
  /\ (forall kw, kw ∈ keywords -> substring kw (lower text) -> kw ∈ found)
  /\ found `sublist_of` keywords
  /\ (keyword_dict !! lower review_type = None -> found = []).
Proof.
  cbv zeta. unfold get_top_keywords. split; [|split; [|split]].
  - intros kw Hkw. apply list_elem_of_In, filter_In in Hkw as [Hin Hc].
    split; [by apply str_contains_spec | by apply list_elem_of_In].
  - intros kw Hin Hsub. apply list_elem_of_In, filter_In.
    split; [by apply list_elem_of_In | by apply str_contains_spec].
  - apply filter_sublist.
  - by intros ->.
Qed.

End KeywordExplainer.

Lemma keyword_explanation_witness :
  get_top_keywords ascii_lower (py "Runs SMALL, the fit is off")
    {[ py "sizing" := [py "fit"; py "large"; py "small"] ]} (py "Sizing")
  = [py "fit"; py "small"]
  /\ get_top_keywords ascii_lower (py "Runs SMALL, the fit is off")
       {[ py "sizing" := [py "fit"; py "large"; py "small"] ]} (py "Quality")
     = [].
Proof.
  split.
  - vm_compute. reflexivity.
  - exact (proj2 (proj2 (proj2
      (keyword_explanation ascii_lower (py "Runs SMALL, the fit is off")
         {[ py "sizing" := [py "fit"; py "large"; py "small"] ]} (py "Quality"))))
      eq_refl).
Defined.

(** ** The topic resolver: [get_category_keywords] and lines 212-217 of [main] *)

Lemma candidates_nil (topic_mapping : list (Z * pystr)) (category : pystr) :
  (fun kv : Z * pystr => kv.1)
    <$> List.filter (fun kv => bool_decide (kv.2 = category)) topic_mapping = []
  <-> Forall (fun kv => kv.2 <> category) topic_mapping.
Proof.
  induction topic_mapping as [|[k v] m IH]; simpl.
  - split; [constructor | done].
  - case_bool_decide as Hv; simpl in *.
    + split; [done | inversion 1; done].
    + rewrite IH. split; [by constructor | by inversion 1].
Qed.

Lemma candidates_cons (topic_mapping : list (Z * pystr)) (category : pystr) k rest :
  (fun kv : Z * pystr => kv.1)
    <$> List.filter (fun kv => bool_decide (kv.2 = category)) topic_mapping = k :: rest
  -> exists before after,
       topic_mapping = before ++ (k, category) :: after
       /\ Forall (fun kv => kv.2 <> category) before.
Proof.
  induction topic_mapping as [|[k' v] m IH]; simpl; [done|].
  case_bool_decide as Hv; simpl in *.
  - intros [= -> _]. subst v. exists [], m. split; [done | constructor].
  - intros H. destruct (IH H) as (before & after & -> & Hb).
    exists ((k', v) :: before), after. split; [done | by constructor].
Qed.

(** The lookup of [main] (lines 214-215) gives the key of the first entry, in
    the mapping's iteration order, whose value equals the category, and "N/A"
    when no entry has that value. *)
Theorem main_topic_num_resolution (topic_mapping : list (Z * pystr)) (category : pystr) :
  match main_topic_num topic_mapping category with
  | TopicId k =>
      exists before after,
        topic_mapping = before ++ (k, category) :: after
        /\ Forall (fun kv => kv.2 <> category) before
  | NotAvailable => Forall (fun kv => kv.2 <> category) topic_mapping
  end.
Proof.
  unfold main_topic_num.
  destruct (_ <$> List.filter _ topic_mapping) as [|k rest] eqn:E.
  - by apply candidates_nil.
  - by apply candidates_cons in E.
Qed.

(** [get_category_keywords] names the same first key when there is one, and
    raises [IndexError] exactly when no entry has the category as value. *)
Theorem get_category_keywords_resolution
    (topic_mapping : list (Z * pystr)) (category : pystr) :
  match main_topic_num topic_mapping category with
  | TopicId k =>
      get_category_keywords topic_mapping category
      = Returns (py "Topic " ++ str_of_int k ++ py " keywords")
  | NotAvailable => get_category_keywords topic_mapping category = Raises IndexError
  end.
Proof.
  unfold main_topic_num, get_category_keywords.
  by destruct (_ <$> List.filter _ topic_mapping).
Qed.

(** C3. On the mapping {3: "Tops", 7: "Dresses", 9: "Tops"} both lookups
    resolve "Tops" to topic 3, the first match; on "Shoes", which no entry
    has, the lookup of [main] gives "N/A" while [get_category_keywords]
    raises [IndexError] from its unguarded [[0]]. *)
Theorem get_category_keywords_unmatched_raises :
  let topic_mapping := [(3%Z, py "Tops"); (7%Z, py "Dresses"); (9%Z, py "Tops")] in
  get_category_keywords topic_mapping (py "Shoes") = Raises IndexError
  /\ get_category_keywords topic_mapping (py "Tops") = Returns (py "Topic 3 keywords")
  /\ main_topic_num topic_mapping (py "Shoes") = NotAvailable
  /\ main_topic_num topic_mapping (py "Tops") = TopicId 3.
Proof. cbv zeta. repeat split; vm_compute; reflexivity. Qed.

(** ** The orchestrator: [load_models] and [main] *)

Lemma in_axes_paths (key path : string) :
  bool_decide ((key, path) ∈ artifact_paths) = true -> (key, path) ∈ artifact_paths.
Proof. apply bool_decide_eq_true_1. Qed.

Lemma in_primary_axes (key : string) :
  bool_decide (key ∈ primary_axes) = true -> key ∈ primary_axes.
Proof. apply bool_decide_eq_true_1. Qed.

Lemma dict_get_snapshot (w : World) (key path : string) :
  (key, path) ∈ artifact_paths -> dict_get (snapshot w) key = loaded w path.
Proof. intros H. unfold dict_get. by rewrite (snapshot_lookup w key path H). Qed.

Lemma loaded_returns (w : World) (path : string) (o : PyObj) :
  path_exists w path = true -> joblib_load w path = Returns o -> loaded w path = o.
Proof. unfold loaded. by intros -> ->. Qed.


Lemma predict_event_present (f : string -> PyObj) (cleaned : pystr) key predict :
  key ∈ primary_axes -> f key = PyEstimator predict ->
  Predict key [cleaned]
    ∈ flat_map (fun key => predict_events key (f key) cleaned) primary_axes.
Proof.
  intros Hk Hf. apply list_elem_of_In, in_flat_map. exists key.
  split; [by apply list_elem_of_In|].
  rewrite Hf. simpl. by left.
Qed.

Lemma predict_event_batch (f : string -> PyObj) (cleaned : pystr) key batch :
  Predict key batch
    ∈ flat_map (fun key => predict_events key (f key) cleaned) primary_axes ->
  key ∈ primary_axes /\ batch = [cleaned].
Proof.
  intros H. apply list_elem_of_In, in_flat_map in H as (k & Hk & Hin).
  apply list_elem_of_In in Hk.
  destruct (f k); simpl in Hin; try done.
  by destruct Hin as [[= <- <-] | []].
Qed.


Section Orchestrator.

Variable lower : pystr -> pystr.

(** C2. Empty-input short-circuit: on a review that is empty or made of
    whitespace only, [main] shows the warning and stops with the empty-input
    signal; the only event is the warning, so no artifact is read and no
    model's [predict] is called. *)
Theorem empty_input_short_circuit (w : World) (review : pystr) (log : list event) :
  Forall (fun c => is_space c = true) review ->
  exists events,
    main lower w review log = (Returns EmptyInput, log ++ events)
    /\ events = [StWarning "Please enter a review"]
    /\ (forall key batch, Predict key batch ∉ events)
    /\ (forall path, JoblibLoad path ∉ events).
Proof.
  intros H. apply strip_falsy_iff in H. eexists. split; [|split; [reflexivity|]].
  - by apply main_blank_run.
  - split; intros; rewrite elem_of_cons, elem_of_nil; by intros [|].
Qed.


End Orchestrator.

(** ** Scenarios that depend on what [str.lower] does *)

Lemma ascii_lower_letters (s : pystr) (c : N) :
  c ∈ ascii_lower s -> is_az c = true ->
  exists c', c' ∈ s /\ ascii_isalpha c' = true.
Proof.
  unfold ascii_lower. intros Hin Haz.
  apply list_elem_of_fmap in Hin as (c' & -> & Hin).
  exists c'. split; [done|].
  unfold ascii_isalpha, ascii_lower_cp in *.
  destruct (is_AZ c'); [done | by rewrite Haz].
Qed.

Section Scenarios.

(** [str.lower] and [str.isalpha] of the interpreter.  On a string of ASCII
    code points [lower] is the ASCII lowering; and every [a-z] code point of a
    lowered string comes from an alphabetic code point of the string (only
    letters have a lowercase mapping). *)
Variable lower : pystr -> pystr.
Variable isalpha : N -> bool.
Hypothesis lower_ascii :
  forall s, Forall (fun c => is_ascii c = true) s -> lower s = ascii_lower s.
Hypothesis lower_letters :
  forall s c, c ∈ lower s -> is_az c = true ->
              exists c', c' ∈ s /\ isalpha c' = true.

(** C9. End-to-end scenario: the review
    "This dress was AMAZING!! 10/10 would buy again." is cleaned to
    "this dress was amazing  would buy again", with the two spaces around the
    removed "!! 10/10" kept; and when the sentiment model answers "Positive"
    on that cleaned text, the sentiment axis shows the label "Positive". *)
Theorem end_to_end_scenario (w : World) (predict : list pystr -> outcome PyObj)
    (r : PyObj) (log : list event) :
  path_exists w "models/sentiment_model.pkl" = true ->
  joblib_load w "models/sentiment_model.pkl" = Returns (PyEstimator predict) ->
  predict [py "this dress was amazing  would buy again"] = Returns r ->
  getitem0 r = Returns (PyStr (py "Positive")) ->
  clean_text lower (py "This dress was AMAZING!! 10/10 would buy again.")
  = py "this dress was amazing  would buy again"
  /\ exists b log',
       main lower w (py "This dress was AMAZING!! 10/10 would buy again.") log
       = (Returns (Analyzed b), log')
       /\ cleaned_text b = py "this dress was amazing  would buy again"
       /\ axis_result (sentiment b) = Label (PyStr (py "Positive")).
Proof using lower lower_ascii.
  intros He Hl Hr Hv.
  assert (clean_text lower (py "This dress was AMAZING!! 10/10 would buy again.")
          = py "this dress was amazing  would buy again") as Hc.
  { unfold clean_text. cbv zeta.
    rewrite lower_ascii by (apply forallb_Forall; vm_compute; reflexivity).
    vm_compute. reflexivity. }
  split; [done|]. eexists _, _.
  split; [apply main_run; vm_compute; reflexivity|].
  cbn [sentiment cleaned_text]. split; [done|].
  rewrite (dict_get_snapshot w "sentiment" "models/sentiment_model.pkl")
    by (apply in_axes_paths; vm_compute; reflexivity).
  rewrite (loaded_returns w _ _ He Hl), Hc. simpl. by rewrite Hr, Hv.
Qed.

(** C10. The empty-input guard looks at the raw review only: a review with
    a code point that is not whitespace and with no alphabetic code point is
    not short-circuited; its cleaned text is empty or made of whitespace;
    [main] returns a bundle with that cleaned text; every primary model that
    loaded as a classifier has its [predict] called on it, and no [predict]
    call gets any other batch. *)
Theorem guard_inspects_raw_review (w : World) (review : pystr) (log : list event) :
  (exists c, c ∈ review /\ is_space c = false) ->
  (forall c, c ∈ review -> isalpha c = false) ->
  str_is_falsy (strip review) = false
  /\ Forall (fun c => is_space c = true) (clean_text lower review)
  /\ exists b events,
       main lower w review log = (Returns (Analyzed b), log ++ events)
       /\ cleaned_text b = clean_text lower review
       /\ (forall key path predict,
             key ∈ primary_axes -> (key, path) ∈ artifact_paths ->
             path_exists w path = true ->
             joblib_load w path = Returns (PyEstimator predict) ->
             Predict key [clean_text lower review] ∈ events)
       /\ (forall key batch,
             Predict key batch ∈ events -> batch = [clean_text lower review]).
Proof using lower isalpha lower_letters.
  intros Hns Hna.
  assert (str_is_falsy (strip review) = false) as Hg by by apply strip_truthy_iff.
  split; [done|]. split.
  - apply Forall_forall. intros c Hc.
    apply list_elem_of_In, filter_In in Hc as [Hin Hk].
    apply in_class_iff in Hk as [Haz | Hsp]; [|done].
    apply list_elem_of_In in Hin.
    destruct (lower_letters review c Hin Haz) as (c' & Hc' & Ha).
    rewrite (Hna c' Hc') in Ha. discriminate.
  - eexists _, _. split; [rewrite (main_run lower w review log Hg), <- (assoc_L (++)); done|].
    split; [done|]. split.
    + intros key path predict Hk Hp He Hl.
      apply elem_of_app. right.
      apply (predict_event_present
               (fun key => dict_get (snapshot w) key) _ key predict Hk).
      by rewrite (dict_get_snapshot w key path Hp), (loaded_returns w path _ He Hl).
    + intros key batch [Hin | Hin]%elem_of_app.
      * apply list_elem_of_In, in_flat_map in Hin as ([k p] & _ & Hin).
        unfold load_events in Hin. simpl in Hin.
        destruct (path_exists w p); simpl in Hin; [by destruct Hin | done].
      * by apply (predict_event_batch (fun key => dict_get (snapshot w) key)) in Hin as [_ ?].
Qed.

End Scenarios.

(** ** The theorems at work on the ASCII fragment *)

Lemma none_of (f : N -> bool) (l : pystr) :
  forallb (fun c => negb (f c)) l = true -> forall c, c ∈ l -> f c = false.
Proof.
  intros H c Hc. apply forallb_Forall in H.
  rewrite Forall_forall in H. apply negb_true_iff. by apply H.
Qed.

Lemma empty_input_short_circuit_witness :
  exists events,
    main ascii_lower shop_world (py "   ") [] = (Returns EmptyInput, [] ++ events)
    /\ events = [StWarning "Please enter a review"]
    /\ (forall key batch, Predict key batch ∉ events)
    /\ (forall path, JoblibLoad path ∉ events).
Proof.
  apply (empty_input_short_circuit ascii_lower shop_world (py "   ") []).
  apply forallb_Forall. vm_compute. reflexivity.
Defined.


Lemma end_to_end_scenario_witness :
  clean_text ascii_lower (py "This dress was AMAZING!! 10/10 would buy again.")
  = py "this dress was amazing  would buy again"
  /\ exists b log',
       main ascii_lower shop_world
         (py "This dress was AMAZING!! 10/10 would buy again.") []
       = (Returns (Analyzed b), log')
       /\ cleaned_text b = py "this dress was amazing  would buy again"
       /\ axis_result (sentiment b) = Label (PyStr (py "Positive")).
Proof.
  apply (end_to_end_scenario ascii_lower (fun s _ => eq_refl) shop_world
           (fun _ => Returns (PyList [PyStr (py "Positive")]))
           (PyList [PyStr (py "Positive")]) []).
  - vm_compute. reflexivity.
  - vm_compute. reflexivity.
  - reflexivity.
  - reflexivity.
Defined.

Lemma guard_inspects_raw_review_witness :
  str_is_falsy (strip (py "123!!!")) = false
  /\ Forall (fun c => is_space c = true) (clean_text ascii_lower (py "123!!!"))
  /\ exists b events,
       main ascii_lower shop_world (py "123!!!") [] = (Returns (Analyzed b), [] ++ events)
       /\ cleaned_text b = clean_text ascii_lower (py "123!!!")
       /\ (forall key path predict,
             key ∈ primary_axes -> (key, path) ∈ artifact_paths ->
             path_exists shop_world path = true ->
             joblib_load shop_world path = Returns (PyEstimator predict) ->
             Predict key [clean_text ascii_lower (py "123!!!")] ∈ events)
       /\ (forall key batch,
             Predict key batch ∈ events -> batch = [clean_text ascii_lower (py "123!!!")]).
Proof.
  apply (guard_inspects_raw_review ascii_lower ascii_isalpha ascii_lower_letters
           shop_world (py "123!!!") []).
  - exists 49. split; [|reflexivity].
    apply list_elem_of_In. vm_compute. left. reflexivity.
  - apply none_of. vm_compute. reflexivity.
Defined.

(** ** Further properties of the script *)

(** *** What [load_models] and [main] do, call by call *)



Section Calls.

Variable lower : pystr -> pystr.

(** [main] short-circuits exactly on the reviews made of whitespace: every
    review with one code point that is not whitespace is analysed. *)
Theorem main_empty_input_iff (w : World) (review : pystr) (log : list event) :
  (exists log', main lower w review log = (Returns EmptyInput, log'))
  <-> Forall (fun c => is_space c = true) review.
Proof.
  rewrite <- strip_falsy_iff. split.
  - intros [log' H]. destruct (str_is_falsy (strip review)) eqn:Hg; [done|].
    rewrite (main_run lower w review log Hg) in H. discriminate.
  - intros Hg. eexists. by apply main_blank_run.
Qed.



End Calls.



(** *** [clean_text] on ASCII reviews *)

Lemma filter_fmap {A B} (p : B -> bool) (f : A -> B) (l : list A) :
  List.filter p (f <$> l) = f <$> List.filter (fun x => p (f x)) l.
Proof.
  induction l as [|x l IH]; [done|].
  cbn [fmap list_fmap List.filter]. rewrite IH. by destruct (p (f x)).
Qed.

Lemma filter_fmap_fixed {A} (p : A -> bool) (f : A -> A) (l : list A) :
  (forall x, p (f x) = p x) -> (forall x, p x = true -> f x = x) ->
  List.filter p (f <$> l) = List.filter p l.
Proof.
  intros Hp Hf. induction l as [|x l IH]; [done|].
  cbn [fmap list_fmap List.filter]. rewrite IH, Hp.
  destruct (p x) eqn:Hx; [|done]. by rewrite (Hf x Hx).
Qed.

Lemma is_az_ascii_lower (c : N) : is_az (ascii_lower_cp c) = ascii_isalpha c.
Proof.
  unfold ascii_lower_cp, ascii_isalpha. destruct (is_AZ c) eqn:H; [|done].
  revert H. unfold is_AZ, is_az.
  rewrite !andb_true_iff, !N.leb_le. lia.
Qed.

Lemma is_space_not_AZ (c : N) : is_space c = true -> is_AZ c = false.
Proof. intros H. apply in_class_not_AZ, in_class_iff. by right. Qed.

Lemma is_space_ascii_lower (c : N) : is_space (ascii_lower_cp c) = is_space c.
Proof.
  unfold ascii_lower_cp. destruct (is_AZ c) eqn:H; [|done].
  transitivity false; [|symmetry].
  - apply not_true_is_false. revert H. unfold is_AZ, is_space.
    rewrite !orb_true_iff, !andb_true_iff, !N.leb_le, !N.eqb_eq. lia.
  - apply not_true_is_false. intros Hs. apply is_space_not_AZ in Hs. congruence.
Qed.

Lemma ascii_lower_no_uppercase (s : pystr) (c : N) :
  c ∈ ascii_lower s -> is_AZ c = false.
Proof.
  unfold ascii_lower. intros (c' & -> & _)%list_elem_of_fmap.
  unfold ascii_lower_cp. destruct (is_AZ c') eqn:H; [|done].
  apply not_true_is_false. revert H. unfold is_AZ.
  rewrite !andb_true_iff, !N.leb_le. lia.
Qed.

Section AsciiReviews.

(** [str.lower] of the interpreter; on ASCII strings it is the ASCII
    lowering. *)
Variable lower : pystr -> pystr.
Hypothesis lower_ascii :
  forall s, Forall (fun c => is_ascii c = true) s -> lower s = ascii_lower s.

(** On ASCII text [clean_text] works code point by code point: it
    commutes with concatenation, keeps every letter (lowered) and every
    whitespace code point in place and order, and never lengthens the text. *)
Theorem clean_text_ascii (x y : pystr) :
  Forall (fun c => is_ascii c = true) x ->
  Forall (fun c => is_ascii c = true) y ->
  clean_text lower (x ++ y) = clean_text lower x ++ clean_text lower y
  /\ List.filter is_az (clean_text lower x) = ascii_lower (List.filter ascii_isalpha x)
  /\ List.filter is_space (clean_text lower x) = List.filter is_space x
  /\ (List.length (clean_text lower x) <= List.length x)%nat.
Proof using lower lower_ascii.
  intros Hx Hy. unfold clean_text, re_sub_not_az_space. cbv zeta.
  rewrite !lower_ascii by (try apply Forall_app; done).
  unfold ascii_lower. split; [|split; [|split]].
  - by rewrite fmap_app, List.filter_app.
  - rewrite filter_filter_weaker
      by (intros c Hc; apply in_class_iff; by left).
    rewrite filter_fmap. f_equal.
    apply List.filter_ext. intros c. apply is_az_ascii_lower.
  - rewrite filter_filter_weaker
      by (intros c Hc; apply in_class_iff; by right).
    apply filter_fmap_fixed; [apply is_space_ascii_lower|].
    intros c Hc. unfold ascii_lower_cp. by rewrite (is_space_not_AZ c Hc).
  - etransitivity; [apply List.filter_length_le|]. by rewrite length_fmap.
Qed.

End AsciiReviews.

Lemma clean_text_ascii_witness :
  clean_text ascii_lower (py "Size 10, " ++ py "Runs SMALL")
  = clean_text ascii_lower (py "Size 10, ") ++ clean_text ascii_lower (py "Runs SMALL")
  /\ List.filter is_az (clean_text ascii_lower (py "Size 10, "))
     = ascii_lower (List.filter ascii_isalpha (py "Size 10, "))
  /\ List.filter is_space (clean_text ascii_lower (py "Size 10, "))
     = List.filter is_space (py "Size 10, ")
  /\ (List.length (clean_text ascii_lower (py "Size 10, ")) <= List.length (py "Size 10, "))%nat.
Proof.
  apply (clean_text_ascii ascii_lower (fun s _ => eq_refl)
           (py "Size 10, ") (py "Runs SMALL")).
  - apply forallb_Forall. vm_compute. reflexivity.
  - apply forallb_Forall. vm_compute. reflexivity.
Defined.

(** *** Letter case and sizes in [get_top_keywords] *)

Lemma substring_elem (kw text : pystr) (c : N) :
  substring kw text -> c ∈ kw -> c ∈ text.
Proof. intros (pre & post & ->) Hc. set_solver. Qed.

Lemma substring_length (kw text : pystr) :
  substring kw text -> (List.length kw <= List.length text)%nat.
Proof. intros (pre & post & ->). rewrite !length_app. lia. Qed.

Section KeywordCase.

(** [str.lower] of the interpreter; its result has no code point in
    [A-Z]. *)
Variable lower : pystr -> pystr.
Hypothesis lower_no_uppercase : forall s c, c ∈ lower s -> is_AZ c = false.

(** Only the text and the label are lowercased, the table is not: a keyword
    with an uppercase ASCII letter is never reported. *)
Theorem uppercase_keyword_never_matches (text : pystr)
    (keyword_dict : gmap pystr (list pystr)) (review_type kw : pystr) :
  kw ∈ get_top_keywords lower text keyword_dict review_type ->
  Forall (fun c => is_AZ c = false) kw.
Proof using lower lower_no_uppercase.
  unfold get_top_keywords. intros [_ Hc]%list_elem_of_In%filter_In.
  apply str_contains_spec in Hc. apply Forall_forall. intros c Hin.
  apply (lower_no_uppercase text). by apply (substring_elem kw).
Qed.

(** An entry of the table under a key with an uppercase ASCII letter is
    never used: adding, replacing or removing it changes no result. *)
Theorem uppercase_key_unreachable (text : pystr)
    (keyword_dict : gmap pystr (list pystr)) (review_type key : pystr)
    (keywords : list pystr) :
  (exists c, c ∈ key /\ is_AZ c = true) ->
  get_top_keywords lower text (<[key := keywords]> keyword_dict) review_type
  = get_top_keywords lower text keyword_dict review_type
  /\ get_top_keywords lower text (delete key keyword_dict) review_type
     = get_top_keywords lower text keyword_dict review_type.
Proof using lower lower_no_uppercase.
  intros (c & Hc & Hup).
  assert (key <> lower review_type) as Hne.
  { intros ->. rewrite (lower_no_uppercase review_type c Hc) in Hup. discriminate. }
  unfold get_top_keywords.
  by rewrite lookup_insert_ne, lookup_delete_ne.
Qed.

End KeywordCase.

Section KeywordSizes.

Variable lower : pystr -> pystr.

(** Sizes: an empty keyword of the list is always reported; a reported
    keyword is never longer than the lowered text; and there are never more
    results than keywords in the list. *)
Theorem keyword_sizes (text : pystr)
    (keyword_dict : gmap pystr (list pystr)) (review_type : pystr) :
  let keywords := default [] (keyword_dict !! lower review_type) in
  let found := get_top_keywords lower text keyword_dict review_type in
  ([] ∈ keywords -> [] ∈ found)
  /\ (forall kw, kw ∈ found -> (List.length kw <= List.length (lower text))%nat)
  /\ (List.length found <= List.length keywords)%nat.
Proof.
  cbv zeta. unfold get_top_keywords. split; [|split].
  - intros Hin. apply list_elem_of_In, filter_In.
    split; [by apply list_elem_of_In|]. by destruct (lower text).
  - intros kw [_ Hc]%list_elem_of_In%filter_In.
    by apply substring_length, str_contains_spec.
  - apply List.filter_length_le.
Qed.

End KeywordSizes.

Lemma uppercase_keyword_never_matches_witness :
  Forall (fun c => is_AZ c = false) (py "fit").
Proof.
  apply (uppercase_keyword_never_matches ascii_lower ascii_lower_no_uppercase
           (py "The FIT is off") {[ py "sizing" := [py "FIT"; py "fit"] ]}
           (py "Sizing") (py "fit")).
  apply list_elem_of_In. vm_compute. left. reflexivity.
Defined.

Lemma uppercase_key_unreachable_witness :
  get_top_keywords ascii_lower (py "The fit is off")
    (<[py "Sizing" := [py "fit"]]> ∅) (py "Sizing")
  = get_top_keywords ascii_lower (py "The fit is off") ∅ (py "Sizing")
  /\ get_top_keywords ascii_lower (py "The fit is off")
       (delete (py "Sizing") ∅) (py "Sizing")
     = get_top_keywords ascii_lower (py "The fit is off") ∅ (py "Sizing").
Proof.
  apply (uppercase_key_unreachable ascii_lower ascii_lower_no_uppercase).
  exists 83. split; [|reflexivity].
  apply list_elem_of_In. vm_compute. left. reflexivity.
Defined.

(** *** The topic lookups on a mapping with distinct labels *)

Lemma main_topic_num_cons (k : Z) (v category : pystr) (m : list (Z * pystr)) :
  main_topic_num ((k, v) :: m) category
  = if bool_decide (v = category) then TopicId k else main_topic_num m category.
Proof. unfold main_topic_num. simpl. by case_bool_decide. Qed.

(** When no two topics share a label, looking up the label of any entry
    gives back that entry's key, in [main] and in [get_category_keywords]
    alike. *)
Theorem topic_lookup_round_trip (topic_mapping : list (Z * pystr))
    (k : Z) (category : pystr) :
  NoDup (topic_mapping.*2) ->
  (k, category) ∈ topic_mapping ->
  main_topic_num topic_mapping category = TopicId k
  /\ get_category_keywords topic_mapping category
     = Returns (py "Topic " ++ str_of_int k ++ py " keywords").
Proof.
  intros Hnd Hin.
  assert (main_topic_num topic_mapping category = TopicId k) as Hm.
  { induction topic_mapping as [|[k' v] m IH]; [by apply elem_of_nil in Hin|].
    rewrite main_topic_num_cons. rewrite fmap_cons in Hnd.
    apply NoDup_cons in Hnd as [Hv Hnd]. simpl in Hv.
    apply elem_of_cons in Hin as [[= <- <-] | Hin].
    - by rewrite bool_decide_eq_true_2.
    - case_bool_decide as Heq; [|by apply IH].
      subst v. exfalso. apply Hv.
      apply list_elem_of_fmap. by exists (k, category). }
  split; [done|].
  revert Hm. unfold main_topic_num, get_category_keywords.
  destruct (_ <$> List.filter _ topic_mapping); [done|]. by intros [= ->].
Qed.

Lemma topic_lookup_round_trip_witness :
  main_topic_num [(3%Z, py "Tops"); (7%Z, py "Dresses"); (12%Z, py "Shoes")] (py "Dresses")
  = TopicId 7
  /\ get_category_keywords
       [(3%Z, py "Tops"); (7%Z, py "Dresses"); (12%Z, py "Shoes")] (py "Dresses")
     = Returns (py "Topic " ++ str_of_int 7 ++ py " keywords").
Proof.
  apply (topic_lookup_round_trip
           [(3%Z, py "Tops"); (7%Z, py "Dresses"); (12%Z, py "Shoes")] 7%Z (py "Dresses")).
  - apply (@bool_decide_eq_true_1 _ (NoDup_dec _)). vm_compute. reflexivity.
  - apply list_elem_of_In. vm_compute. right. left. reflexivity.
Defined.

(** ** The process model: what gets out of the handlers, what is cached *)

Module ProcessFacts.

Import Process.

Lemma add_log_nil (st : State) : add_log st [] = st.
Proof. destruct st. unfold add_log. simpl. by rewrite app_nil_r. Qed.

Lemma add_log_app (st : State) (l1 l2 : list event) :
  add_log (add_log st l1) l2 = add_log st (l1 ++ l2).
Proof. unfold add_log. simpl. by rewrite (assoc_L (++)). Qed.

Lemma bind_run {A B} (m : M A) (k : A -> M B) st a st' :
  m st = (Returns a, st') -> bind m k st = k a st'.
Proof. unfold bind. by intros ->. Qed.

Lemma getitem0_no_exit (r : PyObj) (signal : string) :
  getitem0 r <> Raises (Exit signal).
Proof.
  destruct r as [|[|c s]| |[|x l]|items|predict]; simpl; try done.
  by destruct (List.find _ items).
Qed.

Lemma try_load_contains (w : World) (path : string) (st : State) :
  (forall signal, path_exists w path = true -> joblib_load w path <> Raises (Exit signal)) ->
  try_load w path st = (Returns (loaded w path), add_log st (load_events w path)).
Proof.
  intros Hq. unfold try_load, try_except, loaded, load_events, bind, emit, lift, ret.
  destruct (path_exists w path); [|by rewrite add_log_nil].
  destruct (joblib_load w path) as [o|[e|signal]]; [done..|].
  by destruct (Hq signal).
Qed.

Lemma load_models_body_run (w : World) (st : State) :
  no_exit_on_load w ->
  load_models_body w st
  = (Returns (snapshot w),
     add_log st (JoblibLoad <$> List.filter (path_exists w) (artifact_paths.*2))).
Proof.
  intros Hq. unfold load_models_body.
  erewrite bind_run
    by (apply try_load_contains; intros s; apply (Hq "sentiment"%string);
        apply in_axes_paths; vm_compute; reflexivity).
  erewrite bind_run
    by (apply try_load_contains; intros s; apply (Hq "review_type"%string);
        apply in_axes_paths; vm_compute; reflexivity).
  erewrite bind_run
    by (apply try_load_contains; intros s; apply (Hq "product_category"%string);
        apply in_axes_paths; vm_compute; reflexivity).
  erewrite bind_run
    by (apply try_load_contains; intros s; apply (Hq "topic_mapping"%string);
        apply in_axes_paths; vm_compute; reflexivity).
  erewrite bind_run
    by (apply try_load_contains; intros s; apply (Hq "review_keywords"%string);
        apply in_axes_paths; vm_compute; reflexivity).
  erewrite bind_run
    by (apply try_load_contains; intros s; apply (Hq "vectorizer"%string);
        apply in_axes_paths; vm_compute; reflexivity).
  unfold ret, snapshot. f_equal. rewrite !add_log_app. f_equal.
  unfold load_events. cbn [fmap list_fmap List.filter snd artifact_paths].
  repeat match goal with
         | |- context [path_exists w ?p] => destruct (path_exists w p)
         end; reflexivity.
Qed.

Lemma cached_load_models_run (w : World) (st : State) :
  (st_cache st = None -> no_exit_on_load w) ->
  load_models w st
  = (Returns (models_in_use w st),
     {| st_log := st_log st ++ (JoblibLoad <$> paths_read w st);
        st_cache := Some (models_in_use w st) |}).
Proof.
  intros Hq. unfold load_models, cache_resource, models_in_use, paths_read.
  destruct st as [log [cached|]]; simpl in *.
  - by rewrite app_nil_r.
  - by rewrite (load_models_body_run w _ (Hq eq_refl)).
Qed.

Lemma prediction_block_run (models : Models) (key : string) (cleaned : pystr) (st : State) :
  (forall predict signal,
     models !! key = Some (PyEstimator predict) ->
     predict [cleaned] <> Raises (Exit signal)) ->
  (if is_not_None (dict_get models key)
   then try_except
          (bind (dict_getitem models key) (fun o =>
           bind (call_predict key o [cleaned]) (fun r =>
           lift (getitem0 r))))
          (ret PyNone)
   else ret PyNone) st
  = (Returns (model_output (dict_get models key) cleaned),
     add_log st (predict_events key (dict_get models key) cleaned)).
Proof.
  intros Hq. unfold dict_get, dict_getitem.
  destruct (models !! key) as [o|]; simpl; [|by rewrite add_log_nil].
  destruct o as [| | | | |predict]; simpl;
    try (unfold try_except, bind, ret, raise; simpl; by rewrite add_log_nil).
  unfold try_except, bind, emit, lift, ret, predict_events. simpl.
  pose proof (Hq predict) as Hp.
  destruct (predict [cleaned]) as [r|[e|signal]]; [|done|by destruct (Hp signal)].
  pose proof (getitem0_no_exit r) as Hg.
  destruct (getitem0 r) as [v|[e|signal]]; [done..|by destruct (Hg signal)].
Qed.


Lemma process_snapshot_lookup (w : World) (key path : string) :
  (key, path) ∈ artifact_paths -> snapshot w !! key = Some (loaded w path).
Proof.
  unfold artifact_paths. rewrite !elem_of_cons, elem_of_nil.
  intros H. unfold snapshot.
  repeat (destruct H as [[= -> ->] | H]; [by simplify_map_eq|]).
  done.
Qed.


Section Classification.

Variable lower : pystr -> pystr.

Lemma main_classification_run (w : World) (review : pystr) (st : State) :
  str_is_falsy (strip review) = false ->
  (st_cache st = None -> no_exit_on_load w) ->
  no_exit_on_predict (models_in_use w st) (clean_text lower review) ->
  main_classification lower w review st =
    (Returns (Analyzed
       {| sentiment :=
            model_output (dict_get (models_in_use w st) "sentiment") (clean_text lower review);
          review_type :=
            model_output (dict_get (models_in_use w st) "review_type") (clean_text lower review);
          category :=
            model_output (dict_get (models_in_use w st) "product_category")
              (clean_text lower review);
          cleaned_text := clean_text lower review |}),
     {| st_log :=
          st_log st ++ (JoblibLoad <$> paths_read w st)
          ++ flat_map (fun key => predict_events key (dict_get (models_in_use w st) key)
                                    (clean_text lower review)) primary_axes;
        st_cache := Some (models_in_use w st) |}).
Proof.
  intros Hg Hl Hp. unfold main_classification. rewrite Hg.
  erewrite bind_run by (by apply cached_load_models_run). cbv zeta.
  erewrite bind_run
    by (apply prediction_block_run; intros p s; apply Hp;
        apply in_primary_axes; vm_compute; reflexivity).
  erewrite bind_run
    by (apply prediction_block_run; intros p s; apply Hp;
        apply in_primary_axes; vm_compute; reflexivity).
  erewrite bind_run
    by (apply prediction_block_run; intros p s; apply Hp;
        apply in_primary_axes; vm_compute; reflexivity).
  unfold ret, add_log. simpl. by rewrite !app_nil_r, <- !(assoc_L (++)).
Qed.

End Classification.

(** C4, refuted as stated.  The sentiment artifact is a pickle whose loading
    calls [sys.exit]: [SystemExit] is not an instance of [Exception], the
    handler of [try_load] lets it through, and [load_models] raises it to its
    caller.  No snapshot is returned, nothing is cached, and the department
    artifact, which exists, is not read. *)
Lemma load_models_exit_propagates :
  load_models exiting_pickle_shop fresh
  = (Raises (Exit "SystemExit"),
     {| st_log := [JoblibLoad "models/sentiment_model.pkl"]; st_cache := None |}).
Proof. vm_compute. reflexivity. Qed.

(** C4, amended.  When no artifact raises an exception outside [Exception]
    while it is loaded, [load_models] returns a snapshot and raises nothing.
    With nothing cached the snapshot has exactly the six keys of the script;
    a key whose path does not exist or whose deserialization raises an
    instance of [Exception] maps to [None], a key whose artifact loads maps
    to the loaded object, and the snapshot is cached.  With a snapshot
    cached, that snapshot is returned and the state is unchanged. *)
Theorem load_models_contains_errors (w : World) (st : State) :
  no_exit_on_load w ->
  exists models st',
    load_models w st = (Returns models, st')
    /\ (forall cached, st_cache st = Some cached -> models = cached /\ st' = st)
    /\ (st_cache st = None ->
        st_cache st' = Some models
        /\ dom models = list_to_set (artifact_paths.*1)
        /\ (forall key path, (key, path) ∈ artifact_paths ->
              path_exists w path = false
              \/ (exists e, joblib_load w path = Raises (Error e)) ->
              models !! key = Some PyNone)
        /\ (forall key path o, (key, path) ∈ artifact_paths ->
              path_exists w path = true -> joblib_load w path = Returns o ->
              models !! key = Some o)).
Proof.
  intros Hq. eexists _, _. split; [by apply cached_load_models_run|].
  unfold models_in_use, paths_read. split.
  - intros cached Hc. rewrite Hc. simpl. split; [done|].
    destruct st as [log c]. simpl in *. subst c. by rewrite app_nil_r.
  - intros Hc. rewrite Hc. simpl. split; [done|]. split; [|split].
    + unfold snapshot. rewrite !dom_insert_L, dom_singleton_L. simpl. set_solver.
    + intros key path Hk Hbad. rewrite (process_snapshot_lookup w key path Hk).
      f_equal. unfold loaded. destruct Hbad as [-> | [e ->]]; [done|].
      by destruct (path_exists w path).
    + intros key path o Hk He Hl. rewrite (process_snapshot_lookup w key path Hk).
      unfold loaded. by rewrite He, Hl.
Qed.

(** The first call in a process reads the paths that exist, once each, in
    the order of the dict display, and no missing path; a load that raises an
    instance of [Exception] does not stop the later loads.  Once a call has
    returned, every later call returns the same snapshot and reads nothing,
    whatever the disk holds by then. *)
Theorem load_models_reads_once (w : World) (st : State) :
  (st_cache st = None -> no_exit_on_load w) ->
  exists models st',
    load_models w st = (Returns models, st')
    /\ st_log st' = st_log st ++ (JoblibLoad <$> paths_read w st)
    /\ (forall w' : World, load_models w' st' = (Returns models, st')).
Proof.
  intros Hq. eexists _, _. split; [by apply cached_load_models_run|].
  split; [done|]. intros w'. unfold load_models, cache_resource. done.
Qed.

Section Claims.

Variable lower : pystr -> pystr.


(** The calls of a classification, in a run where nothing raises outside
    [Exception]: the loads (none when a snapshot is cached), then one
    [predict] per primary axis whose object has one, on the one-element batch
    of the cleaned text, in the order sentiment, review type, product
    category; a [predict] that raises is not called again.  The run leaves
    the snapshot it used in the cache. *)
Theorem classification_call_trace (w : World) (review : pystr) (st : State) :
  str_is_falsy (strip review) = false ->
  (st_cache st = None -> no_exit_on_load w) ->
  no_exit_on_predict (models_in_use w st) (clean_text lower review) ->
  exists b st',
    main_classification lower w review st = (Returns (Analyzed b), st')
    /\ st_log st'
       = st_log st
         ++ (JoblibLoad <$> paths_read w st)
         ++ ((fun key => Predict key [clean_text lower review])
               <$> List.filter (fun key => is_estimator (dict_get (models_in_use w st) key))
                     primary_axes)
    /\ st_cache st' = Some (models_in_use w st).
Proof.
  intros Hg Hl Hp. eexists _, _.
  split; [by apply main_classification_run|]. split; [|done].
  cbn [st_log]. do 2 f_equal.
  unfold primary_axes, predict_events. cbn [flat_map List.filter].
  repeat match goal with
         | |- context [is_estimator ?o] => destruct (is_estimator o)
         end; reflexivity.
Qed.

End Claims.


(** A model whose [predict] answers a bare string instead of a sequence is
    not reported as failing: [[0]] takes the first character as the label. *)
Lemma bare_string_prediction_is_indexed :
  getitem0 (PyStr (py "Positive")) = Returns (PyStr (py "P")).
Proof. reflexivity. Qed.

Lemma no_exit_on_load_disk (files : list (string * outcome PyObj)) :
  forallb (fun f => match f.2 with Raises (Exit _) => false | _ => true end) files = true ->
  no_exit_on_load (disk files).
Proof.
  intros Hall key path signal _ _. unfold disk. simpl.
  induction files as [|[p r] files IH]; simpl in *; [done|].
  apply andb_true_iff in Hall as [Hr Hall].
  destruct (String.eqb p path); [|by apply IH].
  simpl. intros ->. discriminate.
Qed.

Lemma load_models_contains_errors_witness :
  exists models st',
    load_models corrupt_shop fresh = (Returns models, st')
    /\ models !! "sentiment"%string = Some PyNone
    /\ models !! "review_type"%string = Some PyNone
    /\ models !! "product_category"%string = Some (constant_model "Dresses")
    /\ st_cache st' = Some models.
Proof.
  destruct (load_models_contains_errors corrupt_shop fresh)
    as (models & st' & Hrun & _ & Hcold).
  - apply no_exit_on_load_disk. vm_compute. reflexivity.
  - destruct (Hcold eq_refl) as (Hcache & _ & Habsent & Hpresent).
    exists models, st'. split; [exact Hrun|]. split; [|split; [|split]].
    + apply (Habsent _ "models/sentiment_model.pkl"%string).
      * apply in_axes_paths. vm_compute. reflexivity.
      * right. eexists. vm_compute. reflexivity.
    + apply (Habsent _ "models/reviewtype_model.pkl"%string).
      * apply in_axes_paths. vm_compute. reflexivity.
      * left. vm_compute. reflexivity.
    + apply (Hpresent _ "models/department_model.pkl"%string).
      * apply in_axes_paths. vm_compute. reflexivity.
      * vm_compute. reflexivity.
      * vm_compute. reflexivity.
    + exact Hcache.
Defined.

Lemma load_models_reads_once_witness :
  exists models st',
    load_models corrupt_shop fresh = (Returns models, st')
    /\ st_log st' = st_log fresh ++ (JoblibLoad <$> paths_read corrupt_shop fresh)
    /\ (forall w' : World, load_models w' st' = (Returns models, st')).
Proof.
  apply (load_models_reads_once corrupt_shop fresh).
  intros _. apply no_exit_on_load_disk. vm_compute. reflexivity.
Defined.

Lemma no_exit_on_predict_shop (cleaned : pystr) :
  no_exit_on_predict (snapshot shop) cleaned.
Proof.
  intros key predict signal Hk. unfold primary_axes in Hk.
  rewrite !elem_of_cons, elem_of_nil in Hk.
  destruct Hk as [-> | [-> | [-> | []]]]; vm_compute; intros [= <-]; discriminate.
Qed.


(** A second click, after the disk lost every artifact: the run reads
    nothing and works with the snapshot of the first. *)
Lemma classification_call_trace_witness :
  let warm := {| st_log := []; st_cache := Some (snapshot shop) |} in
  exists b st',
    main_classification ascii_lower (disk []) (py "Lovely dress!") warm
    = (Returns (Analyzed b), st')
    /\ st_log st'
       = st_log warm
         ++ (JoblibLoad <$> paths_read (disk []) warm)
         ++ ((fun key => Predict key [clean_text ascii_lower (py "Lovely dress!")])
               <$> List.filter
                     (fun key => is_estimator (dict_get (models_in_use (disk []) warm) key))
                     primary_axes)
    /\ st_cache st' = Some (models_in_use (disk []) warm).
Proof.
  cbv zeta.
  apply (classification_call_trace ascii_lower (disk []) (py "Lovely dress!")
           {| st_log := []; st_cache := Some (snapshot shop) |}).
  - vm_compute. reflexivity.
  - intros [=].
  - apply no_exit_on_predict_shop.
Defined.

End ProcessFacts.

(** ** How the two models relate *)

Lemma embed_getitem0 (r : PyObj) :
  Process.getitem0 (embed r) = embed_outcome (getitem0 r).
Proof.
  destruct r as [|[|c s]| |[|x l]|items|predict]; simpl; try done.
  induction items as [|[k v] items IH]; simpl; [done|].
  destruct k as [| |[| |]| | |]; simpl; try done.
Qed.

Lemma embed_model_output (o : PyObj) (cleaned : pystr) :
  Process.model_output (embed o) cleaned = embed (model_output o cleaned).
Proof.
  destruct o as [| | | | |predict]; simpl; try done.
  destruct (predict [cleaned]) as [r|e]; simpl; [|done].
  rewrite embed_getitem0. by destruct (getitem0 r).
Qed.

Lemma embed_is_estimator (o : PyObj) (key : string) (cleaned : pystr) :
  Process.predict_events key (embed o) cleaned = predict_events key o cleaned.
Proof. by destruct o. Qed.

Lemma embed_loaded (w : World) (path : string) :
  Process.loaded (embed_world w) path = embed (loaded w path).
Proof.
  unfold Process.loaded, loaded. simpl.
  destruct (path_exists w path); [|done]. by destruct (joblib_load w path).
Qed.

Lemma embed_snapshot (w : World) :
  Process.snapshot (embed_world w) = embed <$> snapshot w.
Proof.
  unfold Process.snapshot, snapshot.
  rewrite !fmap_insert, map_fmap_singleton. by rewrite !embed_loaded.
Qed.

Lemma embed_dict_get (models : gmap string PyObj) (key : string) :
  Process.dict_get (embed <$> models) key = embed (dict_get models key).
Proof.
  unfold Process.dict_get, dict_get. rewrite lookup_fmap.
  by destruct (models !! key).
Qed.

Lemma embed_no_exit_on_load (w : World) : Process.no_exit_on_load (embed_world w).
Proof.
  intros key path signal _ _. simpl. by destruct (joblib_load w path).
Qed.

Lemma embed_no_exit_on_predict (models : gmap string PyObj) (cleaned : pystr) :
  Process.no_exit_on_predict (embed <$> models) cleaned.
Proof.
  intros key predict signal _. rewrite lookup_fmap.
  destruct (models !! key) as [o|]; [|done]. simpl.
  destruct o as [| | | | |p]; simpl; try done.
  intros [= <-]. by destruct (p [cleaned]).
Qed.

Lemma load_events_filter (w : World) (paths : list (string * string)) :
  flat_map (fun kp => load_events w kp.2) paths
  = JoblibLoad <$> List.filter (path_exists w) (paths.*2).
Proof.
  induction paths as [|[k p] paths IH]; [done|].
  cbn [flat_map fmap list_fmap List.filter snd]. rewrite IH.
  unfold load_events. by destruct (path_exists w p).
Qed.

(** [main] of the first part is the classification of the process model
    on a process that has cached nothing, on a disk where nothing raises
    outside [Exception]: same result, same calls, and the snapshot it loaded
    left in the cache. *)
Theorem main_is_first_exit_free_run (lower : pystr -> pystr) (w : World)
    (review : pystr) (log : list event) :
  exists a log',
    main lower w review log = (Returns a, log')
    /\ Process.main_classification lower (embed_world w) review
         {| Process.st_log := log; Process.st_cache := None |}
       = (Process.Returns (embed_analysis a),
          {| Process.st_log := log';
             Process.st_cache :=
               if str_is_falsy (strip review) then None else Some (embed <$> snapshot w) |}).
Proof.
  destruct (str_is_falsy (strip review)) eqn:Hg.
  - eexists _, _. split; [by apply main_blank_run|].
    unfold Process.main_classification. by rewrite Hg.
  - eexists _, _. split; [by apply main_run|].
    rewrite ProcessFacts.main_classification_run; [|done| |].
    + rewrite load_events_filter.
      unfold Process.models_in_use, Process.paths_read.
      cbn [Process.st_cache Process.st_log default embed_analysis
           sentiment review_type category cleaned_text].
      rewrite embed_snapshot, !embed_dict_get, !embed_model_output.
      unfold primary_axes. cbn [flat_map].
      rewrite !embed_dict_get, !embed_is_estimator.
      by rewrite !app_nil_r, <- !(assoc_L (++)).
    + intros _. apply embed_no_exit_on_load.
    + unfold Process.models_in_use. simpl. rewrite embed_snapshot.
      apply embed_no_exit_on_predict.
Qed.

